(** * Bayesian coin toss: the notebook's closed-form evaluator and report

    A shallow embedding of the code cells of
    [Bayesian_stats/Lesson 0 - Coin Toss.ipynb].

    Numbers are exact rationals ([Q]): every numpy operation the cells use
    ([np.linspace], [**] with a literal integer exponent, [*], [-], [/],
    [np.sum], [np.mean], slicing) is given its exact-arithmetic meaning.
    Where numpy would produce a non-finite value (division by a zero
    normalising constant, mean of an empty slice) or Python would raise
    (indexing past the end), the embedding returns an explicit error.

    The exact reading leaves out the rounding, underflow and overflow of
    binary64.  At the notebook's own constants (1000 points, exponents 9
    and 6) no value underflows or overflows.  For arbitrary inputs the two
    can part: the module [Float64] gives lines 3 and 4 of the evaluator cell
    in binary64 on short arrays, and the properties stated for arbitrary
    inputs are either ones on which both agree (exact zeros and ones, array
    lengths, which variables a cell writes) or say that they are about exact
    arithmetic. *)

From Stdlib Require Import QArith Qpower Qabs Qreals Reals ZArith List Bool Lia Lra Psatz
  Permutation PrimFloat.
Import ListNotations.

Local Open Scope Q_scope.

(** ** Outcomes of a cell *)

Inductive outcome (A : Type) : Type :=
| Ok (a : A)
| IndexError
| NonFinite.

Arguments Ok {A} a.
Arguments IndexError {A}.
Arguments NonFinite {A}.

Definition bind {A B : Type} (m : outcome A) (k : A -> outcome B) : outcome B :=
  match m with
  | Ok a => k a
  | IndexError => IndexError
  | NonFinite => NonFinite
  end.

Notation "x <- m ;; k" := (bind m (fun x => k))
  (at level 61, m at next level, right associativity).

(** ** The numpy operations the notebook uses, in exact arithmetic *)

Module Np.

(** [np.sum]: the order of summation is immaterial in exact arithmetic. *)
Definition sum (l : list Q) : Q := fold_right Qplus 0 l.

(** [np.mean]: the sum over the number of elements; numpy yields [nan]
    on an empty array. *)
Definition mean (l : list Q) : outcome Q :=
  match l with
  | [] => NonFinite
  | _ => Ok (sum l / inject_Z (Z.of_nat (length l)))
  end.

(** [np.zeros(n)] *)
Definition zeros (n : nat) : list Q := repeat 0 n.

(** [a[:k] = v] on a one-dimensional array. *)
Definition assign_prefix (a : list Q) (k : nat) (v : Q) : list Q :=
  repeat v (Nat.min k (length a)) ++ skipn k a.

(** [a[k:]] *)
Definition slice_from (k : nat) (a : list Q) : list Q := skipn k a.

(** [a[i]] for a non-negative index. *)
Definition index (a : list Q) (i : nat) : outcome Q :=
  match nth_error a i with
  | Some x => Ok x
  | None => IndexError
  end.

(** [np.linspace(start, stop, num)] with the default [endpoint=True]:
    [step = (stop - start) / (num - 1)], the points are
    [arange(num) * step + start], and the last one is overwritten by [stop]. *)
Definition linspace (start stop : Q) (num : nat) : list Q :=
  match num with
  | O => []
  | S O => [start]
  | S div =>
      let step := (stop - start) / inject_Z (Z.of_nat div) in
      map (fun i => inject_Z (Z.of_nat i) * step + start) (seq 0 div) ++ [stop]
  end.

(** Element-wise operations with a scalar or between arrays. *)
Definition pow (a : list Q) (n : nat) : list Q := map (fun x => x ^ Z.of_nat n) a.
Definition rsub (c : Q) (a : list Q) : list Q := map (fun x => c - x) a.
Definition scale (a : list Q) (c : Q) : list Q := map (fun x => x * c) a.
Definition divide (a : list Q) (c : Q) : list Q := map (fun x => x / c) a.

Fixpoint mul (a b : list Q) : list Q :=
  match a, b with
  | x :: a', y :: b' => x * y :: mul a' b'
  | _, _ => []
  end.

End Np.

(** ** Cell 3: the closed-form evaluator

    [[
    theta = np.linspace(0,1,1000)
    post_theta = (theta**9)*(1-theta)**6
    C = np.sum(post_theta*(theta[1]-theta[0]))
    post_theta = post_theta/C
    ]]

    The grid resolution and the two exponents are the only constants of the
    cell; they are parameters here and the cell itself is the instance
    [1000], [9], [6]. *)

Module ClosedForm.

(** The function of [theta] the cell evaluates at each grid point. *)
Definition density (a b : nat) (t : Q) : Q := t ^ Z.of_nat a * (1 - t) ^ Z.of_nat b.

Definition grid (num : nat) : list Q := Np.linspace 0 1 num.

Definition unnormalised (a b : nat) (theta : list Q) : list Q :=
  Np.mul (Np.pow theta a) (Np.pow (Np.rsub 1 theta) b).

(** [theta[1] - theta[0]] *)
Definition spacing (theta : list Q) : outcome Q :=
  t1 <- Np.index theta 1 ;;
  t0 <- Np.index theta 0 ;;
  Ok (t1 - t0).

(** The left-rectangle Riemann sum [np.sum(dens * dtheta)]. *)
Definition riemann (dens : list Q) (dtheta : Q) : Q := Np.sum (Np.scale dens dtheta).

(** Lines 3 and 4 of the cell: the constant and the division by it.
    Dividing by a zero constant gives [nan] or [inf] entries in numpy. *)
Definition normalise (theta dens : list Q) : outcome (Q * list Q) :=
  dtheta <- spacing theta ;;
  let C := riemann dens dtheta in
  if Qeq_bool C 0 then NonFinite else Ok (C, Np.divide dens C).

Record curve : Type := {
  theta : list Q;
  C : Q;
  post_theta : list Q
}.

Definition evaluate (num a b : nat) : outcome curve :=
  let th := grid num in
  r <- normalise th (unnormalised a b th) ;;
  Ok {| theta := th; C := fst r; post_theta := snd r |}.

(** The cell with the notebook's constants. *)
Definition cell : outcome curve := evaluate 1000 9 6.

(** The mean of a normalised grid density, by the same Riemann rule:
    the sum of [theta_i * p_i * dtheta]. *)
Definition grid_mean (c : curve) : outcome Q :=
  dtheta <- spacing (theta c) ;;
  Ok (riemann (Np.mul (theta c) (post_theta c)) dtheta).

End ClosedForm.

(** ** Cell 2: the model

    [[
    alpha = 2
    beta = 3
    y_obs = np.zeros(10)
    y_obs[:7] = 1
    niter = 10000
    with pm.Model() as model:
        theta_ = pm.Beta('theta', alpha=alpha, beta=beta)
        y = pm.Bernoulli('y', p=theta_, observed=y_obs)
        trace = pm.sample(niter)
    ]]

    (the notebook names the sampled variable with the Greek letter).
    The prior and the likelihood are the ones the notebook writes out in its
    first cell: the prior is proportional to [t^(alpha-1) (1-t)^(beta-1)], and each
    toss contributes [t^1(y=1) (1-t)^1(y=0)]. *)

Module Model.

Definition alpha : Q := 2.
Definition beta : Q := 3.
Definition y_obs : list Q := Np.assign_prefix (Np.zeros 10) 7 1.
Definition niter : nat := 10 * 1000.

(** The Beta prior without its constant, for integral shape parameters. *)
Definition beta_kernel (a b : Z) (t : Q) : Q := t ^ (a - 1) * (1 - t) ^ (b - 1).

Definition indicator (c : bool) : Z := if c then 1%Z else 0%Z.

(** [p(y_i | t)] *)
Definition bernoulli (t y : Q) : Q :=
  t ^ indicator (Qeq_bool y 1) * (1 - t) ^ indicator (Qeq_bool y 0).

(** [p(y_1, ..., y_n | t)], the product over the tosses. *)
Definition likelihood (t : Q) (ys : list Q) : Q :=
  fold_right (fun y acc => bernoulli t y * acc) 1 ys.

(** The posterior up to its constant: likelihood times prior. *)
Definition posterior_kernel (a b : Z) (ys : list Q) (t : Q) : Q :=
  likelihood t ys * beta_kernel a b t.

Definition is_binary (y : Q) : bool := Qeq_bool y 0 || Qeq_bool y 1.
Definition binary (ys : list Q) : Prop := forallb is_binary ys = true.

Definition successes (ys : list Q) : nat := length (filter (fun y => Qeq_bool y 1) ys).
Definition failures (ys : list Q) : nat := length (filter (fun y => Qeq_bool y 0) ys).

(** Modelled from the spec: the notebook has no function that computes the
    posterior parameters (its evaluator cell hard-codes two exponents); the
    update is [alpha' = alpha + (count of successes)],
    [beta' = beta + (count of failures)]. *)
Definition posterior_params (a b : Q) (ys : list Q) : Q * Q :=
  (a + inject_Z (Z.of_nat (successes ys)), b + inject_Z (Z.of_nat (failures ys))).

(** Modelled from the spec: the analytic posterior mean [alpha' / (alpha' + beta')],
    which the notebook derives on paper only. *)
Definition posterior_mean (p : Q * Q) : Q := fst p / (fst p + snd p).

End Model.

(** ** Cells 4 and 5: the comparison plot and the estimate

    [[
    plt.hist(trace['theta'][1000:],100, normed='true')
    plt.plot(theta, post_theta)
    plt.show()
    ]]
    [[
    np.mean(trace['theta'][1000:])
    ]] *)

Module Report.

Record figure : Type := {
  hist_samples : list Q;
  hist_bins : nat;
  hist_normed : bool;
  line_x : list Q;
  line_y : list Q
}.

Definition plot (trace : list Q) (c : ClosedForm.curve) : figure :=
  {| hist_samples := Np.slice_from 1000 trace;
     hist_bins := 100;
     hist_normed := true;
     line_x := ClosedForm.theta c;
     line_y := ClosedForm.post_theta c |}.

Definition estimate (trace : list Q) : outcome Q :=
  Np.mean (Np.slice_from 1000 trace).

End Report.

(** ** The notebook as a sequence of cells over its namespace

    The sampler [pm.sample] is a library call whose result depends on its
    random source; a run of the notebook receives its draws as [draws]. *)

Module Notebook.

Record env : Type := {
  v_alpha : Q;
  v_beta : Q;
  v_y_obs : list Q;
  v_niter : nat;
  v_trace : list Q;
  v_theta : list Q;
  v_post_theta : list Q;
  v_C : Q
}.

Definition cell_model (draws : list Q) (e : env) : env :=
  {| v_alpha := Model.alpha;
     v_beta := Model.beta;
     v_y_obs := Model.y_obs;
     v_niter := Model.niter;
     v_trace := draws;
     v_theta := v_theta e;
     v_post_theta := v_post_theta e;
     v_C := v_C e |}.

(** The evaluator cell for a grid resolution and two exponents; it assigns
    [theta], [post_theta], [C] and [post_theta] again, in this order. *)
Definition cell_closed_form_at (num a b : nat) (e : env) : outcome env :=
  let e1 := {| v_alpha := v_alpha e; v_beta := v_beta e; v_y_obs := v_y_obs e;
               v_niter := v_niter e; v_trace := v_trace e;
               v_theta := Np.linspace 0 1 num;
               v_post_theta := v_post_theta e; v_C := v_C e |} in
  let e2 := {| v_alpha := v_alpha e1; v_beta := v_beta e1; v_y_obs := v_y_obs e1;
               v_niter := v_niter e1; v_trace := v_trace e1;
               v_theta := v_theta e1;
               v_post_theta := ClosedForm.unnormalised a b (v_theta e1);
               v_C := v_C e1 |} in
  dtheta <- ClosedForm.spacing (v_theta e2) ;;
  let e3 := {| v_alpha := v_alpha e2; v_beta := v_beta e2; v_y_obs := v_y_obs e2;
               v_niter := v_niter e2; v_trace := v_trace e2;
               v_theta := v_theta e2;
               v_post_theta := v_post_theta e2;
               v_C := ClosedForm.riemann (v_post_theta e2) dtheta |} in
  if Qeq_bool (v_C e3) 0 then NonFinite
  else Ok {| v_alpha := v_alpha e3; v_beta := v_beta e3; v_y_obs := v_y_obs e3;
             v_niter := v_niter e3; v_trace := v_trace e3;
             v_theta := v_theta e3;
             v_post_theta := Np.divide (v_post_theta e3) (v_C e3);
             v_C := v_C e3 |}.

Definition cell_closed_form : env -> outcome env := cell_closed_form_at 1000 9 6.

Definition curve_of (e : env) : ClosedForm.curve :=
  {| ClosedForm.theta := v_theta e;
     ClosedForm.C := v_C e;
     ClosedForm.post_theta := v_post_theta e |}.

Definition cell_plot (e : env) : Report.figure := Report.plot (v_trace e) (curve_of e).

Definition cell_estimate (e : env) : outcome Q := Report.estimate (v_trace e).

Definition map_outcome {A B : Type} (f : A -> B) (m : outcome A) : outcome B :=
  x <- m ;; Ok (f x).

End Notebook.

(** ** Lines 3 and 4 of the evaluator cell in binary64

    [[
    C = np.sum(post_theta*(theta[1]-theta[0]))
    post_theta = post_theta/C
    ]]

    Products, differences and quotients are the correctly rounded binary64
    operations.  [np.sum] starts from zero and, on an array of fewer than
    eight entries, adds the entries from left to right; longer arrays are
    summed in blocks and are not modelled.  A division by zero raises
    nothing: it leaves [nan] or [inf] in the array. *)

Module Float64.

Inductive run (A : Type) : Type :=
| Done (a : A)
| Raises
| NotModelled.

Arguments Done {A} a.
Arguments Raises {A}.
Arguments NotModelled {A}.

Definition sum (a : list float) : run float :=
  if Nat.ltb (length a) 8 then Done (fold_left PrimFloat.add a 0%float)
  else NotModelled.

Definition scale (a : list float) (c : float) : list float :=
  map (fun x => (x * c)%float) a.

Definition divide (a : list float) (c : float) : list float :=
  map (fun x => (x / c)%float) a.

(** [theta[1] - theta[0]] *)
Definition spacing (theta : list float) : run float :=
  match theta with
  | t0 :: t1 :: _ => Done (t1 - t0)%float
  | _ => Raises
  end.

Definition riemann (dens : list float) (dtheta : float) : run float :=
  sum (scale dens dtheta).

Definition normalise (theta dens : list float) : run (float * list float) :=
  match spacing theta with
  | Done dtheta =>
      match riemann dens dtheta with
      | Done C => Done (C, divide dens C)
      | Raises => Raises
      | NotModelled => NotModelled
      end
  | Raises => Raises
  | NotModelled => NotModelled
  end.

End Float64.

(** ** Definitions used in the statements and proofs below *)

(** Arrays equal entry by entry as rationals. *)
Definition array_eq (l l' : list Q) : Prop := Forall2 Qeq l l'.

(** The grid of [num] points with its points written as fractions. *)
Definition fraction (div : nat) (i : nat) : Q :=
  inject_Z (Z.of_nat i) / inject_Z (Z.of_nat div).

(** On the grid point [i / div] the density is
    [i^a (div - i)^b / div^(a+b)]: numerator, sum of the numerators over the
    grid, and common denominator. *)
Definition znum (div a b : nat) (i : nat) : Z :=
  (Z.of_nat i ^ Z.of_nat a * (Z.of_nat div - Z.of_nat i) ^ Z.of_nat b)%Z.

Definition zsum (div a b : nat) : Z :=
  fold_right Z.add 0%Z (map (znum div a b) (seq 0 (S div))).

Definition zden (div a b : nat) : Z := (Z.of_nat div ^ Z.of_nat (a + b))%Z.

(** The function of [theta] the cell evaluates, read over the real numbers. *)
Definition density_R (a b : nat) (t : R) : R := (t ^ a * (1 - t) ^ b)%R.

(** The cofactor of [(t - 3/5)^2] in [108/3125 - t^3 (1-t)^2]. *)
Definition peak_cofactor (t : Q) : Q :=
  - (t * t * t) + (4 # 5) * (t * t) + (8 # 25) * t + (12 # 125).

(** * Properties *)

(** ** The embedding on small inputs *)

Example y_obs_value : Model.y_obs = [1; 1; 1; 1; 1; 1; 1; 0; 0; 0].
Proof. reflexivity. Qed.

Example y_obs_counts :
  Model.successes Model.y_obs = 7%nat /\ Model.failures Model.y_obs = 3%nat /\
  Model.binary Model.y_obs.
Proof. repeat split. Qed.

Example linspace_five_points :
  array_eq (Np.linspace 0 1 5) [0; 1 # 4; 1 # 2; 3 # 4; 1].
Proof. repeat constructor. Qed.

Example linspace_degenerate :
  Np.linspace 0 1 0 = [] /\ Np.linspace 0 1 1 = [0].
Proof. split; reflexivity. Qed.

(** Three grid points, exponents 1 and 1: the density is [0, 1/4, 0], the
    constant is [1/8] and the normalised curve is [0, 2, 0]. *)
Example evaluate_three_points :
  exists c, ClosedForm.evaluate 3 1 1 = Ok c /\
            array_eq (ClosedForm.theta c) [0; 1 # 2; 1] /\
            ClosedForm.C c == 1 # 8 /\
            array_eq (ClosedForm.post_theta c) [0; 2; 0].
Proof.
  eexists. split; [vm_compute; reflexivity|].
  split; [|split]; simpl; repeat constructor.
Qed.

(** A grid of one point has no [theta[1]]; a density that is zero
    everywhere has no finite normalisation. *)
Example evaluate_failures :
  ClosedForm.evaluate 1 9 6 = IndexError /\
  ClosedForm.normalise [0; 1] [0; 0] = NonFinite.
Proof. split; reflexivity. Qed.

Example estimate_small_trace :
  Report.estimate (repeat 0 1000 ++ [1 # 2; 1 # 4]) =
    Ok (((1 # 2) + ((1 # 4) + 0)) / 2)
  /\ Report.estimate (repeat 0 1000) = NonFinite.
Proof. split; reflexivity. Qed.

(** ** Sums of rationals *)

Lemma sum_scale (l : list Q) (c : Q) : Np.sum (Np.scale l c) == Np.sum l * c.
Proof.
  induction l as [|x l IH]; simpl.
  - ring.
  - fold (Np.scale l c). fold (Np.sum (Np.scale l c)). fold (Np.sum l).
    rewrite IH. ring.
Qed.

Lemma sum_divide (l : list Q) (c : Q) : Np.sum (Np.divide l c) == Np.sum l / c.
Proof.
  unfold Np.divide, Qdiv.
  change (map (fun x => x * / c) l) with (Np.scale l (/ c)).
  apply sum_scale.
Qed.



(** ** Normalisation *)






(** ** Pointwise equal arrays *)

Lemma array_eq_refl (l : list Q) : array_eq l l.
Proof. induction l; constructor; [reflexivity | assumption]. Qed.

Lemma array_eq_trans (l1 l2 l3 : list Q) :
  array_eq l1 l2 -> array_eq l2 l3 -> array_eq l1 l3.
Proof.
  intros H12. revert l3. induction H12 as [|x y l l' Hxy _ IH]; intros l3 H23.
  - exact H23.
  - inversion H23 as [|? z ? l'' Hyz Hl]; subst. constructor.
    + rewrite Hxy. exact Hyz.
    + apply IH. exact Hl.
Qed.

Lemma sum_array_eq (l l' : list Q) : array_eq l l' -> Np.sum l == Np.sum l'.
Proof.
  induction 1 as [|x y l l' Hxy _ IH]; simpl.
  - reflexivity.
  - fold (Np.sum l). fold (Np.sum l'). rewrite Hxy, IH. reflexivity.
Qed.

Lemma map_array_eq (f g : Q -> Q) (l l' : list Q) :
  (forall x y, x == y -> f x == g y) ->
  array_eq l l' -> array_eq (map f l) (map g l').
Proof.
  intros Hfg. induction 1 as [|x y l l' Hxy _ IH]; simpl; constructor; auto.
Qed.

Lemma map_seq_array_eq (f g : nat -> Q) (s n : nat) :
  (forall i, (s <= i < s + n)%nat -> f i == g i) ->
  array_eq (map f (seq s n)) (map g (seq s n)).
Proof.
  revert s. induction n as [|n IH]; intros s H; simpl; constructor.
  - apply H. lia.
  - apply IH. intros i Hi. apply H. lia.
Qed.

Lemma array_eq_app (l1 l1' l2 l2' : list Q) :
  array_eq l1 l1' -> array_eq l2 l2' -> array_eq (l1 ++ l2) (l1' ++ l2').
Proof. intros H1 H2. apply Forall2_app; assumption. Qed.

(** ** The grid *)


Lemma inject_nat_nonzero (n : nat) : ~ inject_Z (Z.of_nat (S n)) == 0.
Proof.
  intro H. unfold Qeq in H. simpl in H. lia.
Qed.

Lemma grid_fractions (n : nat) :
  array_eq (ClosedForm.grid (S (S n))) (map (fraction (S n)) (seq 0 (S (S n)))).
Proof.
  unfold ClosedForm.grid, Np.linspace.
  rewrite (seq_S (S n) 0), map_app. apply array_eq_app.
  - apply map_seq_array_eq. intros i _. unfold fraction.
    field. apply inject_nat_nonzero.
  - simpl map. constructor; [|constructor]. unfold fraction.
    field. apply inject_nat_nonzero.
Qed.

Lemma grid_length (num : nat) : length (ClosedForm.grid num) = num.
Proof.
  unfold ClosedForm.grid, Np.linspace. destruct num as [|[|n]]; try reflexivity.
  rewrite length_app, length_map, length_seq. simpl. lia.
Qed.

Lemma grid_spacing (n : nat) :
  exists d, ClosedForm.spacing (ClosedForm.grid (S (S n))) = Ok d /\
            d == 1 / inject_Z (Z.of_nat (S n)).
Proof.
  unfold ClosedForm.grid, Np.linspace. destruct n as [|n].
  - eexists. split; [reflexivity|]. vm_compute. reflexivity.
  - eexists. split; [reflexivity|]. cbv beta.
    change (inject_Z (Z.of_nat 1)) with 1. change (inject_Z (Z.of_nat 0)) with 0.
    field. apply inject_nat_nonzero.
Qed.

(** The cell's expression is the map of [density] over the grid. *)
Lemma unnormalised_map (a b : nat) (theta : list Q) :
  ClosedForm.unnormalised a b theta = map (ClosedForm.density a b) theta.
Proof.
  unfold ClosedForm.unnormalised, Np.pow, Np.rsub, ClosedForm.density.
  induction theta as [|t theta IH]; simpl; [reflexivity|].
  f_equal. exact IH.
Qed.

Lemma density_compat (a b : nat) (x y : Q) :
  x == y -> ClosedForm.density a b x == ClosedForm.density a b y.
Proof. intros H. unfold ClosedForm.density. rewrite H. reflexivity. Qed.

(** ** Grid sums as integer sums

    On the grid point [i / div] the density is
    [i^a (div - i)^b / div^(a+b)], so the sums the cell takes are integer
    sums over a common denominator. *)


Lemma zden_nonzero (n a b : nat) : ~ inject_Z (zden (S n) a b) == 0.
Proof.
  unfold zden. intro H. unfold Qeq in H. simpl in H.
  rewrite Z.mul_1_r in H.
  apply Z.pow_nonzero in H; lia.
Qed.

Lemma density_fraction (n a b i : nat) :
  ClosedForm.density a b (fraction (S n) i) ==
  inject_Z (znum (S n) a b i) / inject_Z (zden (S n) a b).
Proof.
  pose proof (inject_nat_nonzero n) as HN.
  unfold ClosedForm.density, fraction, znum, zden.
  assert (H1 : 1 - inject_Z (Z.of_nat i) / inject_Z (Z.of_nat (S n)) ==
               inject_Z (Z.of_nat (S n) - Z.of_nat i) / inject_Z (Z.of_nat (S n))).
  { unfold Z.sub. rewrite inject_Z_plus, inject_Z_opp. field. exact HN. }
  rewrite H1, !Qdiv_power.
  rewrite Nat2Z.inj_add, Z.pow_add_r by lia.
  rewrite !inject_Z_mult, !Zpower_Qpower by lia.
  field. split; apply Qpower_not_0; exact HN.
Qed.

Lemma sum_over_common_denominator (g : nat -> Z) (d : Q) (l : list nat) :
  Np.sum (map (fun i => inject_Z (g i) / d) l) ==
  inject_Z (fold_right Z.add 0%Z (map g l)) / d.
Proof.
  induction l as [|i l IH]; simpl.
  - unfold Qdiv. ring.
  - fold (Np.sum (map (fun i => inject_Z (g i) / d) l)).
    rewrite IH, inject_Z_plus. unfold Qdiv. ring.
Qed.

Lemma sum_density_grid (n a b : nat) :
  Np.sum (map (ClosedForm.density a b) (ClosedForm.grid (S (S n)))) ==
  inject_Z (zsum (S n) a b) / inject_Z (zden (S n) a b).
Proof.
  rewrite (sum_array_eq _ (map (fun i => inject_Z (znum (S n) a b i) / inject_Z (zden (S n) a b))
                               (seq 0 (S (S n))))).
  - apply sum_over_common_denominator.
  - eapply array_eq_trans.
    + apply map_array_eq; [exact (density_compat a b) | apply grid_fractions].
    + rewrite map_map. apply map_seq_array_eq. intros i _. apply density_fraction.
Qed.

(** Multiplying the normalised curve by [theta] raises the first exponent. *)
Lemma mul_theta_divide (a b : nat) (c : Q) (theta : list Q) :
  array_eq (Np.mul theta (Np.divide (map (ClosedForm.density a b) theta) c))
           (Np.divide (map (ClosedForm.density (S a) b) theta) c).
Proof.
  induction theta as [|t theta IH]; simpl; constructor.
  - unfold ClosedForm.density.
    rewrite Nat2Z.inj_succ, <- Z.add_1_l, Qpower_plus' by lia.
    unfold Qdiv. simpl (t ^ 1). ring.
  - exact IH.
Qed.

Lemma scale_array_eq (l l' : list Q) (c c' : Q) :
  array_eq l l' -> c == c' -> array_eq (Np.scale l c) (Np.scale l' c').
Proof.
  intros Hl Hc. unfold Np.scale. apply map_array_eq; [|exact Hl].
  intros x y Hxy. rewrite Hxy, Hc. reflexivity.
Qed.

Lemma Qdiv_nonzero (x y : Q) : ~ x == 0 -> ~ y == 0 -> ~ x / y == 0.
Proof.
  intros Hx Hy H. apply Hx.
  assert (E : x == x / y * y) by (field; exact Hy).
  rewrite E, H. ring.
Qed.

(** The outcome of the evaluator and the mean of its curve, on a grid of
    [n + 2] points. *)
Lemma evaluate_exact (n a b : nat) :
  (0 < zsum (S n) a b)%Z ->
  exists c m,
    ClosedForm.evaluate (S (S n)) a b = Ok c /\
    ClosedForm.theta c = ClosedForm.grid (S (S n)) /\
    ClosedForm.post_theta c =
      Np.divide (map (ClosedForm.density a b) (ClosedForm.grid (S (S n)))) (ClosedForm.C c) /\
    ClosedForm.C c ==
      inject_Z (zsum (S n) a b) / inject_Z (zden (S n) a b) / inject_Z (Z.of_nat (S n)) /\
    ClosedForm.grid_mean c = Ok m /\
    m == inject_Z (zsum (S n) (S a) b) /
         (inject_Z (Z.of_nat (S n)) * inject_Z (zsum (S n) a b)).
Proof.
  intros Hpos.
  pose proof (inject_nat_nonzero n) as HN.
  pose proof (zden_nonzero n a b) as HD.
  assert (HZ : ~ inject_Z (zsum (S n) a b) == 0).
  { intro H. unfold Qeq in H. simpl in H. lia. }
  destruct (grid_spacing n) as [d [Hsp Hd]].
  set (th := ClosedForm.grid (S (S n))) in *.
  set (c0 := ClosedForm.riemann (map (ClosedForm.density a b) th) d).
  assert (HC : c0 == inject_Z (zsum (S n) a b) / inject_Z (zden (S n) a b)
                      / inject_Z (Z.of_nat (S n))).
  { unfold c0, ClosedForm.riemann. rewrite sum_scale. unfold th.
    rewrite sum_density_grid, Hd. field. split; assumption. }
  assert (HC0 : ~ c0 == 0).
  { rewrite HC. repeat apply Qdiv_nonzero; assumption. }
  exists {| ClosedForm.theta := th; ClosedForm.C := c0;
            ClosedForm.post_theta := Np.divide (map (ClosedForm.density a b) th) c0 |}.
  eexists. split; [|split; [reflexivity|split; [reflexivity|split; [exact HC|split]]]].
  - unfold ClosedForm.evaluate, ClosedForm.normalise. fold th.
    rewrite Hsp, unnormalised_map. cbv beta iota delta [bind]. fold c0.
    destruct (Qeq_bool c0 0) eqn:E.
    + apply Qeq_bool_iff in E. contradiction.
    + reflexivity.
  - unfold ClosedForm.grid_mean.
    cbv beta iota delta [ClosedForm.theta ClosedForm.post_theta].
    rewrite Hsp. reflexivity.
  - unfold ClosedForm.riemann.
    rewrite (sum_array_eq _ _ (scale_array_eq _ _ d d (mul_theta_divide a b c0 th) (Qeq_refl d))).
    rewrite sum_scale, sum_divide. unfold th.
    rewrite sum_density_grid, HC, Hd.
    assert (HD' : ~ inject_Z (zden (S n) (S a) b) == 0) by apply zden_nonzero.
    assert (E : inject_Z (zden (S n) (S a) b) ==
                inject_Z (Z.of_nat (S n)) * inject_Z (zden (S n) a b)).
    { unfold zden. rewrite <- inject_Z_mult.
      replace (Z.of_nat (S a + b)) with (1 + Z.of_nat (a + b))%Z by lia.
      rewrite Z.pow_add_r, Z.pow_1_r by lia. reflexivity. }
    rewrite E. field. repeat split; assumption.
Qed.

(** ** The maximum of [t^9 (1-t)^6] on the unit interval *)


Lemma cube_lt (x y : Q) : 0 <= x -> x < y -> x ^ 3 < y ^ 3.
Proof.
  intros Hx Hxy.
  assert (E : y ^ 3 - x ^ 3 == (y - x) * (y * y + x * y + x * x)) by ring.
  assert (0 < (y - x) * (y * y + x * y + x * x)).
  { apply Qmult_lt_0_compat; [lra | nra]. }
  lra.
Qed.

Lemma square_pos (x : Q) : ~ x == 0 -> 0 < x ^ 2.
Proof.
  intros H. assert (E : x ^ 2 == x * x) by ring. rewrite E.
  destruct (Qlt_le_dec x 0) as [Hn|Hp].
  - nra.
  - assert (0 < x).
    { apply Qle_lteq in Hp. destruct Hp as [Hp|Hp]; [exact Hp|].
      exfalso. apply H. symmetry. exact Hp. }
    nra.
Qed.

(** The cube root of the density, [t^3 (1-t)^2], stays below its value
    [108/3125] at [3/5]: the difference is [(t - 3/5)^2] times a cofactor
    that is positive on the unit interval. *)
Lemma cube_root_below_peak (t : Q) :
  0 <= t -> t <= 1 -> ~ t == 3 # 5 -> t ^ 3 * (1 - t) ^ 2 < 108 # 3125.
Proof.
  intros H0 H1 Hne.
  assert (E : (108 # 3125) - t ^ 3 * (1 - t) ^ 2 == (t - (3 # 5)) ^ 2 * peak_cofactor t)
    by (unfold peak_cofactor; ring).
  assert (Hh : 0 < peak_cofactor t) by (unfold peak_cofactor; nra).
  assert (Hs : 0 < (t - (3 # 5)) ^ 2).
  { apply square_pos. intro Hz. apply Hne. lra. }
  pose proof (Qmult_lt_0_compat _ _ Hs Hh). lra.
Qed.

Lemma density_9_6_cube (t : Q) :
  ClosedForm.density 9 6 t == (t ^ 3 * (1 - t) ^ 2) ^ 3.
Proof. unfold ClosedForm.density. simpl Z.of_nat. ring. Qed.

Lemma density_nonneg (a b : nat) (t : Q) :
  0 <= t -> t <= 1 -> 0 <= ClosedForm.density a b t.
Proof.
  intros H0 H1. unfold ClosedForm.density.
  apply Qmult_le_0_compat; apply Qpower_0_le; lra.
Qed.

Lemma density_9_6_below_peak (t : Q) :
  0 <= t -> t <= 1 -> ~ t == 3 # 5 ->
  ClosedForm.density 9 6 t < ClosedForm.density 9 6 (3 # 5).
Proof.
  intros H0 H1 Hne. rewrite !density_9_6_cube.
  assert (E : (3 # 5) ^ 3 * (1 - (3 # 5)) ^ 2 == 108 # 3125) by reflexivity.
  rewrite E. apply cube_lt.
  - apply Qmult_le_0_compat; apply Qpower_0_le; lra.
  - apply cube_root_below_peak; assumption.
Qed.

(** ** Points of the grid *)

Lemma array_eq_nth_error (l l' : list Q) (i : nat) (t : Q) :
  array_eq l l' -> nth_error l i = Some t ->
  exists t', nth_error l' i = Some t' /\ t == t'.
Proof.
  intros H. revert i. induction H as [|x y l l' Hxy _ IH]; intros i Hi.
  - destruct i; discriminate Hi.
  - destruct i as [|i]; simpl in *.
    + injection Hi as <-. exists y. split; [reflexivity | exact Hxy].
    + apply IH. exact Hi.
Qed.

Lemma grid_point (n i : nat) (t : Q) :
  nth_error (ClosedForm.grid (S (S n))) i = Some t ->
  (i <= S n)%nat /\ t == fraction (S n) i.
Proof.
  intros Hi.
  destruct (array_eq_nth_error _ _ _ _ (grid_fractions n) Hi) as [t' [Hi' Ht]].
  assert (Hlt : (i < S (S n))%nat).
  { rewrite <- (grid_length (S (S n))). apply nth_error_Some. congruence. }
  rewrite nth_error_map, nth_error_seq in Hi'.
  destruct (Nat.ltb_spec i (S (S n))) as [_|]; [|lia].
  simpl in Hi'. injection Hi' as <-. split; [lia | exact Ht].
Qed.

Lemma fraction_bounds (n i : nat) :
  (i <= S n)%nat -> 0 <= fraction (S n) i /\ fraction (S n) i <= 1.
Proof.
  intros Hi. unfold fraction.
  assert (HN : 0 < inject_Z (Z.of_nat (S n))).
  { unfold Qlt. simpl. lia. }
  split.
  - apply Qle_shift_div_l; [exact HN|]. rewrite Qmult_0_l.
    unfold Qle. simpl. lia.
  - apply Qle_shift_div_r; [exact HN|]. rewrite Qmult_1_l.
    rewrite <- Zle_Qle. lia.
Qed.

Lemma fraction_interior (n i : nat) :
  (0 < i < S n)%nat -> 0 < fraction (S n) i /\ fraction (S n) i < 1.
Proof.
  intros Hi. unfold fraction.
  assert (HN : 0 < inject_Z (Z.of_nat (S n))).
  { unfold Qlt. simpl. lia. }
  split.
  - apply Qlt_shift_div_l; [exact HN|]. rewrite Qmult_0_l.
    unfold Qlt. simpl. lia.
  - apply Qlt_shift_div_r; [exact HN|]. rewrite Qmult_1_l.
    rewrite <- Zlt_Qlt. lia.
Qed.

(** ** What the evaluator computes before normalising *)

Lemma density_9_6_below_beta_9_6_kernel (t : Q) :
  0 < t -> t < 1 -> ClosedForm.density 9 6 t < Model.beta_kernel 9 6 t.
Proof.
  intros H0 H1. unfold ClosedForm.density, Model.beta_kernel.
  simpl Z.of_nat. simpl Z.sub.
  assert (HK : 0 < t ^ 8 * (1 - t) ^ 5).
  { apply Qmult_lt_0_compat; apply Qpower_0_lt; lra. }
  assert (E : t ^ 9 * (1 - t) ^ 6 == t ^ 8 * (1 - t) ^ 5 * (t * (1 - t))) by ring.
  rewrite E.
  assert (Hx : t * (1 - t) < 1) by nra.
  set (K := t ^ 8 * (1 - t) ^ 5) in *. nra.
Qed.

Lemma cell_unnormalised_differs_inside (i : nat) (t : Q) :
  (0 < i < 999)%nat ->
  nth_error (ClosedForm.grid 1000) i = Some t ->
  ClosedForm.density 9 6 t < Model.beta_kernel 9 6 t.
Proof.
  intros Hi Ht.
  destruct (grid_point 998 i t Ht) as [_ Hfr].
  destruct (fraction_interior 998 i Hi) as [H0 H1].
  apply density_9_6_below_beta_9_6_kernel; rewrite Hfr; assumption.
Qed.

(** C1. Before normalisation the cell holds 1000 values, the value at a
    grid point [t] being [t^9 (1-t)^6]; at the grid point of index 500,
    [t = 500/999], this is strictly smaller than [t^8 (1-t)^5], the
    unnormalised Beta(9,6) density with [alpha' = 9], [beta' = 6], so the two
    are not equal there. *)
Theorem cell_unnormalised_value_is_not_beta_9_6 :
  length (ClosedForm.unnormalised 9 6 (ClosedForm.grid 1000)) = 1000%nat /\
  (exists t v,
     nth_error (ClosedForm.grid 1000) 500 = Some t /\
     t == 500 # 999 /\
     nth_error (ClosedForm.unnormalised 9 6 (ClosedForm.grid 1000)) 500 = Some v /\
     v = t ^ 9 * (1 - t) ^ 6 /\
     v < t ^ 8 * (1 - t) ^ 5 /\
     ~ v == Model.beta_kernel 9 6 t).
Proof.
  split; [rewrite unnormalised_map, length_map; apply grid_length|].
  assert (Hn : exists t, nth_error (ClosedForm.grid 1000) 500 = Some t).
  { eexists. vm_compute. reflexivity. }
  destruct Hn as [t Ht].
  destruct (grid_point 998 500 t Ht) as [_ Hfr].
  assert (Hv : t == 500 # 999) by (rewrite Hfr; reflexivity).
  assert (Hlt : ClosedForm.density 9 6 t < Model.beta_kernel 9 6 t).
  { apply (cell_unnormalised_differs_inside 500 t); [lia | exact Ht]. }
  exists t, (ClosedForm.density 9 6 t).
  split; [exact Ht|]. split; [exact Hv|].
  split; [rewrite unnormalised_map, nth_error_map, Ht; reflexivity|].
  split; [reflexivity|].
  split; [exact Hlt|].
  intro E. rewrite E in Hlt. exact (Qlt_irrefl _ Hlt).
Qed.

(** ** The mean of the curve the evaluator produces *)

(** With the exponents 8 and 5 of the Beta(9,6) density the same evaluator,
    on the same grid, has mean 3/5 up to the discretisation error. *)
Lemma grid_mean_with_beta_9_6_exponents :
  exists c m,
    ClosedForm.evaluate 1000 8 5 = Ok c /\
    ClosedForm.grid_mean c = Ok m /\
    Qabs (m - (3 # 5)) < 1 # 1000000000000000.
Proof.
  destruct (evaluate_exact 998 8 5) as [c [m [He [_ [_ [_ [Hm Hv]]]]]]].
  - vm_compute. reflexivity.
  - exists c, m. split; [exact He|]. split; [exact Hm|].
    rewrite Hv. vm_compute. reflexivity.
Qed.

(** C3. The curve the cell produces has grid mean
    [sum theta_i p_i dtheta] within [10^-15] of [10/17]; it is more than ten
    grid steps below [9/15 = 3/5], far outside a tolerance of [10^-9]. *)
Theorem cell_grid_mean_is_not_three_fifths :
  exists c m,
    ClosedForm.cell = Ok c /\
    ClosedForm.grid_mean c = Ok m /\
    Qabs (m - (10 # 17)) < 1 # 1000000000000000 /\
    10 # 999 < (9 # 15) - m /\
    ~ Qabs (m - (3 # 5)) <= 1 # 1000000000.
Proof.
  destruct (evaluate_exact 998 9 6) as [c [m [He [_ [_ [_ [Hm Hv]]]]]]].
  - vm_compute. reflexivity.
  - exists c, m. split; [exact He|]. split; [exact Hm|].
    split; [|split].
    + rewrite Hv. vm_compute. reflexivity.
    + rewrite Hv. vm_compute. reflexivity.
    + rewrite Hv. vm_compute. intro H. apply H. reflexivity.
Qed.

(** ** The conjugate update *)

Lemma binary_cons (y : Q) (ys : list Q) :
  Model.binary (y :: ys) -> (y == 0 \/ y == 1) /\ Model.binary ys.
Proof.
  unfold Model.binary. simpl. intros H.
  apply andb_true_iff in H. destruct H as [Hy Hys]. split; [|exact Hys].
  unfold Model.is_binary in Hy. apply orb_true_iff in Hy.
  destruct Hy as [Hy|Hy]; apply Qeq_bool_iff in Hy; [left | right]; exact Hy.
Qed.

Lemma tests_of_zero (y : Q) : y == 0 -> Qeq_bool y 1 = false /\ Qeq_bool y 0 = true.
Proof.
  intros H. split.
  - destruct (Qeq_bool y 1) eqn:E; [|reflexivity].
    apply Qeq_bool_iff in E. rewrite H in E. discriminate E.
  - apply Qeq_bool_iff. exact H.
Qed.

Lemma tests_of_one (y : Q) : y == 1 -> Qeq_bool y 1 = true /\ Qeq_bool y 0 = false.
Proof.
  intros H. split.
  - apply Qeq_bool_iff. exact H.
  - destruct (Qeq_bool y 0) eqn:E; [|reflexivity].
    apply Qeq_bool_iff in E. rewrite H in E. discriminate E.
Qed.

Lemma successes_failures (ys : list Q) :
  Model.binary ys -> (Model.successes ys + Model.failures ys = length ys)%nat.
Proof.
  unfold Model.successes, Model.failures.
  induction ys as [|y ys IH]; intros Hb; [reflexivity|].
  apply binary_cons in Hb. destruct Hb as [[Hy|Hy] Hys]; specialize (IH Hys); simpl.
  - destruct (tests_of_zero y Hy) as [-> ->]. simpl. lia.
  - destruct (tests_of_one y Hy) as [-> ->]. simpl. lia.
Qed.

(** Likelihood times prior is again a Beta kernel, with the counts of
    successes and failures added to the shape parameters. *)
Lemma posterior_kernel_conjugate (a b : Z) (ys : list Q) (t : Q) :
  (1 <= a)%Z -> (1 <= b)%Z -> Model.binary ys ->
  Model.posterior_kernel a b ys t ==
  Model.beta_kernel (a + Z.of_nat (Model.successes ys))
                    (b + Z.of_nat (Model.failures ys)) t.
Proof.
  intros Ha Hb. unfold Model.posterior_kernel, Model.successes, Model.failures.
  induction ys as [|y ys IH]; intros Hbin.
  - simpl. rewrite !Z.add_0_r. ring.
  - apply binary_cons in Hbin. destruct Hbin as [Hy Hys]. specialize (IH Hys).
    simpl Model.likelihood. fold (Model.likelihood t ys).
    rewrite <- Qmult_assoc, IH. unfold Model.bernoulli, Model.beta_kernel.
    simpl filter.
    destruct Hy as [Hy|Hy].
    + destruct (tests_of_zero y Hy) as [-> ->]. simpl Model.indicator. simpl length.
      set (k := length (filter (fun y => Qeq_bool y 1) ys)).
      set (f := length (filter (fun y => Qeq_bool y 0) ys)).
      replace (b + Z.of_nat (S f) - 1)%Z with (1 + (b + Z.of_nat f - 1))%Z by lia.
      rewrite (Qpower_plus' (1 - t)) by lia.
      simpl (t ^ 0). ring.
    + destruct (tests_of_one y Hy) as [-> ->]. simpl Model.indicator. simpl length.
      set (k := length (filter (fun y => Qeq_bool y 1) ys)).
      set (f := length (filter (fun y => Qeq_bool y 0) ys)).
      replace (a + Z.of_nat (S k) - 1)%Z with (1 + (a + Z.of_nat k - 1))%Z by lia.
      rewrite (Qpower_plus' t) by lia.
      simpl ((1 - t) ^ 0). ring.
Qed.

(** C2. For positive [alpha], [beta] and a binary sequence of length [n]
    with [k] successes, the posterior parameters are
    [(alpha + k, beta + n - k)], both positive; and for integral shapes the
    product of the notebook's likelihood and prior is the Beta kernel with
    exactly these parameters. *)
Theorem conjugate_update (alpha beta : Q) (ys : list Q) (n k : nat) :
  0 < alpha -> 0 < beta ->
  Model.binary ys -> length ys = n -> Model.successes ys = k ->
  fst (Model.posterior_params alpha beta ys) == alpha + inject_Z (Z.of_nat k) /\
  snd (Model.posterior_params alpha beta ys) ==
    beta + inject_Z (Z.of_nat n) - inject_Z (Z.of_nat k) /\
  0 < fst (Model.posterior_params alpha beta ys) /\
  0 < snd (Model.posterior_params alpha beta ys) /\
  (forall (a b : Z) (t : Q), (1 <= a)%Z -> (1 <= b)%Z ->
     Model.posterior_kernel a b ys t ==
     Model.beta_kernel (a + Z.of_nat k) (b + Z.of_nat n - Z.of_nat k) t).
Proof.
  intros Ha Hb Hbin Hn Hk.
  pose proof (successes_failures ys Hbin) as Hsf.
  assert (Hf : Model.failures ys = (n - k)%nat) by lia.
  assert (Hkn : (k <= n)%nat) by lia.
  unfold Model.posterior_params. simpl fst. simpl snd. rewrite Hk, Hf.
  assert (E : inject_Z (Z.of_nat (n - k)) ==
              inject_Z (Z.of_nat n) - inject_Z (Z.of_nat k)).
  { rewrite Nat2Z.inj_sub by exact Hkn. unfold Z.sub.
    rewrite inject_Z_plus, inject_Z_opp. ring. }
  assert (P1 : 0 <= inject_Z (Z.of_nat k)) by (rewrite <- (Zle_Qle 0); lia).
  assert (P2 : 0 <= inject_Z (Z.of_nat (n - k))) by (rewrite <- (Zle_Qle 0); lia).
  split; [reflexivity|]. split; [rewrite E; ring|].
  split; [lra|]. split; [lra|].
  intros a b t Ha1 Hb1.
  rewrite (posterior_kernel_conjugate a b ys t Ha1 Hb1 Hbin), Hk, Hf.
  replace (b + Z.of_nat (n - k))%Z with (b + Z.of_nat n - Z.of_nat k)%Z by lia.
  reflexivity.
Qed.

(** The notebook's inputs: [alpha = 2], [beta = 3], seven successes in ten
    tosses give the parameters 9 and 6. *)
Lemma conjugate_update_witness :
  fst (Model.posterior_params Model.alpha Model.beta Model.y_obs) == 2 + 7 /\
  snd (Model.posterior_params Model.alpha Model.beta Model.y_obs) == 3 + 10 - 7 /\
  0 < fst (Model.posterior_params Model.alpha Model.beta Model.y_obs) /\
  0 < snd (Model.posterior_params Model.alpha Model.beta Model.y_obs) /\
  (forall (a b : Z) (t : Q), (1 <= a)%Z -> (1 <= b)%Z ->
     Model.posterior_kernel a b Model.y_obs t ==
     Model.beta_kernel (a + 7) (b + 10 - 7) t).
Proof.
  apply (conjugate_update Model.alpha Model.beta Model.y_obs 10 7);
    reflexivity.
Defined.

(** ** The estimate and the histogram *)

Lemma mean_of_length (l : list Q) (n : nat) :
  length l = S n -> Np.mean l = Ok (Np.sum l / inject_Z (Z.of_nat (S n))).
Proof.
  intros H. destruct l as [|x l]; [discriminate H|].
  unfold Np.mean. rewrite H. reflexivity.
Qed.

(** C5. When the trace holds the 10,000 requested draws, the number the
    last cell reports is the arithmetic mean of the 9,000 draws of index
    1000 and above, the first 1,000 being dropped, and the histogram of the
    comparison plot is drawn from the same retained draws. *)
Theorem estimate_is_mean_of_retained_draws (e : Notebook.env) :
  length (Notebook.v_trace e) = Model.niter ->
  Notebook.cell_estimate e =
    Ok (Np.sum (skipn 1000 (Notebook.v_trace e)) / inject_Z 9000) /\
  length (skipn 1000 (Notebook.v_trace e)) = (9 * 1000)%nat /\
  (forall j, nth_error (skipn 1000 (Notebook.v_trace e)) j =
             nth_error (Notebook.v_trace e) (1000 + j)) /\
  Report.hist_samples (Notebook.cell_plot e) = skipn 1000 (Notebook.v_trace e).
Proof.
  intros Hlen.
  assert (Hret : length (skipn 1000 (Notebook.v_trace e)) = (9 * 1000)%nat).
  { rewrite length_skipn, Hlen. reflexivity. }
  split; [|split; [exact Hret|split]].
  - unfold Notebook.cell_estimate, Report.estimate, Np.slice_from.
    rewrite (mean_of_length _ (8 * 1000 + 999) Hret). reflexivity.
  - intros j. apply nth_error_skipn.
  - reflexivity.
Qed.

Lemma estimate_is_mean_of_retained_draws_witness :
  let e := Notebook.cell_model (repeat (3 # 5) Model.niter)
             {| Notebook.v_alpha := 0; Notebook.v_beta := 0; Notebook.v_y_obs := [];
                Notebook.v_niter := 0; Notebook.v_trace := []; Notebook.v_theta := [];
                Notebook.v_post_theta := []; Notebook.v_C := 0 |} in
  length (Notebook.v_trace e) = Model.niter /\
  Notebook.cell_estimate e =
    Ok (Np.sum (skipn 1000 (Notebook.v_trace e)) / inject_Z 9000) /\
  length (skipn 1000 (Notebook.v_trace e)) = (9 * 1000)%nat /\
  (forall j, nth_error (skipn 1000 (Notebook.v_trace e)) j =
             nth_error (Notebook.v_trace e) (1000 + j)) /\
  Report.hist_samples (Notebook.cell_plot e) = skipn 1000 (Notebook.v_trace e).
Proof.
  intro e.
  assert (H : length (Notebook.v_trace e) = Model.niter) by (vm_compute; reflexivity).
  split; [exact H|].
  apply (estimate_is_mean_of_retained_draws e H).
Defined.

(** ** Determinism of the evaluator *)

(** C9. The evaluator cell reads nothing from the namespace it runs in:
    for the same grid resolution and exponents, two runs started from any
    two namespaces (whatever the sampler left there) end with the same grid
    [theta], the same constant [C] and the same normalised [post_theta], or
    fail alike; the result is the pure function [evaluate] of the three
    constants, and so is the mean derived from it. *)
Theorem closed_form_is_deterministic (num a b : nat) (e1 e2 : Notebook.env) :
  Notebook.map_outcome Notebook.curve_of (Notebook.cell_closed_form_at num a b e1) =
  Notebook.map_outcome Notebook.curve_of (Notebook.cell_closed_form_at num a b e2) /\
  Notebook.map_outcome Notebook.curve_of (Notebook.cell_closed_form_at num a b e1) =
  ClosedForm.evaluate num a b /\
  (c <- Notebook.map_outcome Notebook.curve_of (Notebook.cell_closed_form_at num a b e1) ;;
   ClosedForm.grid_mean c) =
  (c <- Notebook.map_outcome Notebook.curve_of (Notebook.cell_closed_form_at num a b e2) ;;
   ClosedForm.grid_mean c).
Proof.
  assert (H : forall e,
    Notebook.map_outcome Notebook.curve_of (Notebook.cell_closed_form_at num a b e) =
    ClosedForm.evaluate num a b).
  { intros e.
    unfold Notebook.cell_closed_form_at, ClosedForm.evaluate, ClosedForm.normalise,
      ClosedForm.grid, Notebook.map_outcome.
    cbv beta iota zeta delta [Notebook.v_theta Notebook.v_post_theta Notebook.v_C].
    destruct (ClosedForm.spacing (Np.linspace 0 1 num)) as [d| |];
      cbv beta iota delta [bind]; try reflexivity.
    destruct (Qeq_bool _ 0); reflexivity. }
  rewrite (H e1), (H e2). repeat split.
Qed.

(** ** Finiteness of the curve *)

Lemma density_9_6_le_peak (t : Q) :
  0 <= t -> t <= 1 -> ClosedForm.density 9 6 t <= ClosedForm.density 9 6 (3 # 5).
Proof.
  intros H0 H1. destruct (Qeq_dec t (3 # 5)) as [E|N].
  - rewrite (density_compat 9 6 _ _ E). apply Qle_refl.
  - apply Qlt_le_weak, density_9_6_below_peak; assumption.
Qed.

Lemma grid_in_unit_interval (n : nat) (t : Q) :
  In t (ClosedForm.grid (S (S n))) -> 0 <= t /\ t <= 1.
Proof.
  intros Hin. apply In_nth_error in Hin. destruct Hin as [i Hi].
  destruct (grid_point n i t Hi) as [Hle Ht].
  rewrite Ht. apply fraction_bounds. exact Hle.
Qed.

(** C8. The cell succeeds. Its grid starts at 0 and ends at 1; the
    unnormalised density is 0 at both ends and lies between 0 and 1 at
    every grid point; the constant [C] is strictly positive, so the
    normalising division is by a non-zero number; and every value of the
    normalised curve lies between 0 and 4. *)
Theorem cell_curve_is_finite :
  exists c t0 v0 v1,
    ClosedForm.cell = Ok c /\
    nth_error (ClosedForm.theta c) 0 = Some t0 /\ t0 == 0 /\
    nth_error (ClosedForm.theta c) 999 = Some 1 /\
    length (ClosedForm.theta c) = 1000%nat /\
    nth_error (ClosedForm.unnormalised 9 6 (ClosedForm.theta c)) 0 = Some v0 /\
    v0 == 0 /\
    nth_error (ClosedForm.unnormalised 9 6 (ClosedForm.theta c)) 999 = Some v1 /\
    v1 == 0 /\
    Forall (fun v => 0 <= v /\ v <= 1)
           (ClosedForm.unnormalised 9 6 (ClosedForm.theta c)) /\
    0 < ClosedForm.C c /\
    ClosedForm.post_theta c =
      Np.divide (ClosedForm.unnormalised 9 6 (ClosedForm.theta c)) (ClosedForm.C c) /\
    Forall (fun v => 0 <= v /\ v <= 4) (ClosedForm.post_theta c).
Proof.
  destruct (evaluate_exact 998 9 6) as [c [m [He [Hth [Hpost [HC _]]]]]].
  { vm_compute. reflexivity. }
  assert (HCpos : 0 < ClosedForm.C c) by (rewrite HC; vm_compute; reflexivity).
  assert (HClow : 12 # 1000000 <= ClosedForm.C c) by (rewrite HC; vm_compute; discriminate).
  assert (Hpeak : ClosedForm.density 9 6 (3 # 5) <= 1 # 24000) by (vm_compute; discriminate).
  assert (Hbounds : forall t, In t (ClosedForm.grid 1000) ->
            0 <= ClosedForm.density 9 6 t /\
            ClosedForm.density 9 6 t <= ClosedForm.density 9 6 (3 # 5)).
  { intros t Hin. destruct (grid_in_unit_interval 998 t Hin) as [H0 H1].
    split; [apply density_nonneg | apply density_9_6_le_peak]; assumption. }
  assert (H0 : exists t0, nth_error (ClosedForm.grid 1000) 0 = Some t0).
  { eexists. vm_compute. reflexivity. }
  destruct H0 as [t0 Ht0].
  assert (Ht0z : t0 == 0).
  { destruct (grid_point 998 0 t0 Ht0) as [_ E]. rewrite E. reflexivity. }
  assert (Hlast : nth_error (ClosedForm.grid 1000) 999 = Some 1).
  { vm_compute. reflexivity. }
  exists c, t0, (ClosedForm.density 9 6 t0), (ClosedForm.density 9 6 1).
  rewrite Hpost, Hth, unnormalised_map.
  split; [exact He|].
  split; [exact Ht0|]. split; [exact Ht0z|].
  split; [exact Hlast|].
  split; [apply grid_length|].
  split; [rewrite nth_error_map, Ht0; reflexivity|].
  split; [rewrite (density_compat 9 6 _ _ Ht0z); reflexivity|].
  split; [rewrite nth_error_map, Hlast; reflexivity|].
  split; [reflexivity|].
  split.
  { apply Forall_map, Forall_forall. intros t Hin.
    destruct (Hbounds t Hin) as [Hlo Hhi]. split; [exact Hlo | lra]. }
  split; [exact HCpos|].
  split; [reflexivity|].
  unfold Np.divide. rewrite map_map. apply Forall_map, Forall_forall.
  intros t Hin. destruct (Hbounds t Hin) as [Hlo Hhi].
  set (d := ClosedForm.density 9 6 t) in *.
  set (C0 := ClosedForm.C c) in *.
  split.
  - apply Qle_shift_div_l; [exact HCpos | lra].
  - apply Qle_shift_div_r; [exact HCpos | lra].
Qed.

(** ** Where the curve peaks *)

Lemma znum_argmax (i : nat) :
  (i <= 999)%nat -> i <> 599%nat -> (znum 999 9 6 i < znum 999 9 6 599)%Z.
Proof.
  intros Hi Hne.
  assert (H : forallb (fun j => Nat.eqb j 599 || (znum 999 9 6 j <? znum 999 9 6 599)%Z)
                      (seq 0 1000) = true) by (vm_compute; reflexivity).
  rewrite forallb_forall in H. specialize (H i).
  rewrite in_seq in H. specialize (H ltac:(lia)).
  apply orb_true_iff in H. destruct H as [H|H].
  - apply Nat.eqb_eq in H. contradiction.
  - apply Z.ltb_lt. exact H.
Qed.

Lemma zden_pos (n a b : nat) : 0 < inject_Z (zden (S n) a b).
Proof.
  unfold zden. rewrite <- (Zlt_Qlt 0). apply Z.pow_pos_nonneg; lia.
Qed.

Lemma div_lt_div (x y : Z) (d : Q) :
  0 < d -> (x < y)%Z -> inject_Z x / d < inject_Z y / d.
Proof.
  intros Hd Hxy. unfold Qdiv. apply Qmult_lt_compat_r.
  - apply Qinv_lt_0_compat. exact Hd.
  - rewrite <- Zlt_Qlt. exact Hxy.
Qed.

Lemma density_grid_argmax (i : nat) (t t' : Q) :
  nth_error (ClosedForm.grid 1000) i = Some t ->
  nth_error (ClosedForm.grid 1000) 599 = Some t' ->
  i <> 599%nat ->
  ClosedForm.density 9 6 t < ClosedForm.density 9 6 t'.
Proof.
  intros Hi H599 Hne.
  destruct (grid_point 998 i t Hi) as [Hle Ht].
  destruct (grid_point 998 599 t' H599) as [_ Ht'].
  rewrite (density_compat 9 6 _ _ Ht), (density_compat 9 6 _ _ Ht').
  rewrite !density_fraction.
  apply div_lt_div; [apply (zden_pos 998) | apply znum_argmax; assumption].
Qed.

(** The same maximum over the real unit interval. *)

Lemma Q2R_power (q : Q) (n : nat) : Q2R (q ^ Z.of_nat n) = (Q2R q ^ n)%R.
Proof.
  induction n as [|n IH].
  - simpl. unfold Q2R. simpl. lra.
  - rewrite Nat2Z.inj_succ, <- Z.add_1_l.
    rewrite (Qeq_eqR _ (q * q ^ Z.of_nat n)).
    + rewrite Q2R_mult, IH. reflexivity.
    + rewrite Qpower_plus' by lia. simpl (q ^ 1). reflexivity.
Qed.

Lemma density_Q2R (a b : nat) (q : Q) :
  Q2R (ClosedForm.density a b q) = density_R a b (Q2R q).
Proof.
  unfold ClosedForm.density, density_R.
  rewrite Q2R_mult, !Q2R_power, Q2R_minus.
  replace (Q2R 1) with 1%R by (unfold Q2R; simpl; lra). reflexivity.
Qed.

Lemma density_R_below_peak (t : R) :
  (0 <= t)%R -> (t <= 1)%R -> t <> (3 / 5)%R ->
  (density_R 9 6 t < density_R 9 6 (3 / 5))%R.
Proof.
  intros H0 H1 Hne. unfold density_R.
  set (g := (t ^ 3 * (1 - t) ^ 2)%R).
  assert (Hg0 : (0 <= g)%R).
  { unfold g. apply Rmult_le_pos; apply pow_le; lra. }
  assert (Hg : (g < 108 / 3125)%R).
  { assert (E : (108 / 3125 - g =
                 (t - 3 / 5) ^ 2 * (- (t * t * t) + 4 / 5 * (t * t) + 8 / 25 * t + 12 / 125))%R)
      by (unfold g; field).
    assert (Hh : (0 < - (t * t * t) + 4 / 5 * (t * t) + 8 / 25 * t + 12 / 125)%R) by nra.
    assert (Hs : (0 < (t - 3 / 5) ^ 2)%R).
    { replace ((t - 3 / 5) ^ 2)%R with ((t - 3 / 5) * (t - 3 / 5))%R by ring.
      destruct (Rtotal_order t (3 / 5)) as [Hlt|[Heq|Hgt]]; [nra | contradiction | nra]. }
    pose proof (Rmult_lt_0_compat _ _ Hs Hh). lra. }
  replace (t ^ 9 * (1 - t) ^ 6)%R with (g ^ 3)%R by (unfold g; ring).
  replace ((3 / 5) ^ 9 * (1 - 3 / 5) ^ 6)%R with ((108 / 3125) ^ 3)%R by field.
  set (c := (108 / 3125)%R) in *.
  assert (E : (c ^ 3 - g ^ 3 = (c - g) * (c * c + g * c + g * g))%R) by ring.
  assert (0 < (c - g) * (c * c + g * c + g * g))%R.
  { apply Rmult_lt_0_compat; [lra | nra]. }
  lra.
Qed.

(** C10. On the unit interval, rational or real, [t^9 (1-t)^6] has its
    unique maximum at [9/15 = 3/5], which is the mean of Beta(9,6); the
    largest value of the plotted curve is at the grid point of index 599,
    less than one grid step away from [3/5]; and the function is not a
    multiple of the Beta(9,6) kernel [t^8 (1-t)^5]. *)
Theorem curve_peaks_at_three_fifths :
  (forall t, 0 <= t -> t <= 1 -> ~ t == 9 # 15 ->
     ClosedForm.density 9 6 t < ClosedForm.density 9 6 (9 # 15)) /\
  (forall t, ClosedForm.density 9 6 t = t ^ 9 * (1 - t) ^ 6) /\
  (forall t : R, (0 <= t)%R -> (t <= 1)%R -> t <> (9 / 15)%R ->
     (density_R 9 6 t < density_R 9 6 (9 / 15))%R) /\
  (forall q, Q2R (ClosedForm.density 9 6 q) = density_R 9 6 (Q2R q)) /\
  9 # 15 == 3 # 5 /\
  Model.posterior_mean (9, 6) == 9 # 15 /\
  (exists c t p,
     ClosedForm.cell = Ok c /\
     nth_error (ClosedForm.theta c) 599 = Some t /\
     Qabs (t - (3 # 5)) < 1 # 999 /\
     nth_error (ClosedForm.post_theta c) 599 = Some p /\
     forall i v, nth_error (ClosedForm.post_theta c) i = Some v ->
                 i <> 599%nat -> v < p) /\
  ~ (exists k, forall t, ClosedForm.density 9 6 t == k * Model.beta_kernel 9 6 t).
Proof.
  split; [|split; [|split; [|split; [|split; [|split; [|split]]]]]].
  - intros t H0 H1 Hne.
    assert (E : 9 # 15 == 3 # 5) by reflexivity.
    rewrite (density_compat 9 6 _ _ E).
    apply density_9_6_below_peak; try assumption.
    intro Ht. apply Hne. rewrite Ht, E. reflexivity.
  - reflexivity.
  - intros t H0 H1 Hne.
    replace (9 / 15)%R with (3 / 5)%R in * by lra.
    apply density_R_below_peak; assumption.
  - intros q. apply density_Q2R.
  - reflexivity.
  - reflexivity.
  - destruct (evaluate_exact 998 9 6) as [c [m [He [Hth [Hpost [HC _]]]]]].
    { vm_compute. reflexivity. }
    assert (HCpos : 0 < ClosedForm.C c) by (rewrite HC; vm_compute; reflexivity).
    assert (H599 : exists t, nth_error (ClosedForm.grid 1000) 599 = Some t).
    { eexists. vm_compute. reflexivity. }
    destruct H599 as [t Ht].
    exists c, t, (ClosedForm.density 9 6 t / ClosedForm.C c).
    split; [exact He|]. rewrite Hth. split; [exact Ht|]. split; [|split].
    + destruct (grid_point 998 599 t Ht) as [_ E]. rewrite E. vm_compute. reflexivity.
    + rewrite Hpost. unfold Np.divide. rewrite !nth_error_map, Ht. reflexivity.
    + intros i v Hv Hne. rewrite Hpost in Hv. unfold Np.divide in Hv.
      rewrite !nth_error_map in Hv.
      destruct (nth_error (ClosedForm.grid 1000) i) as [ti|] eqn:Hi; [|discriminate Hv].
      simpl in Hv. injection Hv as <-.
      pose proof (density_grid_argmax i ti t Hi Ht Hne) as Hlt.
      unfold Qdiv. apply Qmult_lt_compat_r; [|exact Hlt].
      apply Qinv_lt_0_compat. exact HCpos.
  - intros [k Hk].
    pose proof (Hk (1 # 2)) as H2. pose proof (Hk (1 # 4)) as H4.
    assert (A2 : ClosedForm.density 9 6 (1 # 2) == 1 # 32768) by reflexivity.
    assert (B2 : Model.beta_kernel 9 6 (1 # 2) == 1 # 8192) by reflexivity.
    assert (A4 : ClosedForm.density 9 6 (1 # 4) == 729 # 1073741824) by reflexivity.
    assert (B4 : Model.beta_kernel 9 6 (1 # 4) == 243 # 67108864) by reflexivity.
    rewrite A2, B2 in H2. rewrite A4, B4 in H4. lra.
Qed.

Lemma curve_peaks_at_three_fifths_witness :
  ClosedForm.density 9 6 (1 # 2) < ClosedForm.density 9 6 (9 # 15).
Proof.
  apply (proj1 curve_peaks_at_three_fifths (1 # 2)).
  - discriminate.
  - discriminate.
  - intro H. discriminate H.
Defined.

(** * Further properties of the cells *)

(** ** When the evaluator fails *)

Lemma linspace_length (start stop : Q) (num : nat) :
  length (Np.linspace start stop num) = num.
Proof.
  unfold Np.linspace. destruct num as [|[|n]]; try reflexivity.
  rewrite length_app, length_map, length_seq. simpl. lia.
Qed.

Lemma linspace_last (start stop : Q) (n : nat) :
  nth_error (Np.linspace start stop (S (S n))) (S n) = Some stop.
Proof.
  unfold Np.linspace.
  rewrite nth_error_app2 by (rewrite length_map, length_seq; lia).
  rewrite length_map, length_seq, Nat.sub_diag. reflexivity.
Qed.

Lemma zfold_nonneg (l : list Z) :
  Forall (fun z => (0 <= z)%Z) l -> (0 <= fold_right Z.add 0%Z l)%Z.
Proof. induction 1; simpl; lia. Qed.

Lemma zsum_nonneg (n a b : nat) : (0 <= zsum n a b)%Z.
Proof.
  unfold zsum. apply zfold_nonneg, Forall_map, Forall_forall.
  intros i Hi. apply in_seq in Hi.
  unfold znum. apply Z.mul_nonneg_nonneg; apply Z.pow_nonneg; lia.
Qed.

Lemma riemann_grid (n a b : nat) (d : Q) :
  ClosedForm.spacing (ClosedForm.grid (S (S n))) = Ok d ->
  ClosedForm.riemann (ClosedForm.unnormalised a b (ClosedForm.grid (S (S n)))) d ==
  inject_Z (zsum (S n) a b) / inject_Z (zden (S n) a b) / inject_Z (Z.of_nat (S n)).
Proof.
  intros Hsp. destruct (grid_spacing n) as [d' [Hsp' Hd]].
  rewrite Hsp in Hsp'. injection Hsp' as <-.
  unfold ClosedForm.riemann.
  rewrite sum_scale, unnormalised_map, sum_density_grid, Hd.
  field. split; first [apply inject_nat_nonzero | apply zden_nonzero].
Qed.

Lemma evaluate_two_or_more (n a b : nat) :
  (zsum (S n) a b = 0%Z /\ ClosedForm.evaluate (S (S n)) a b = NonFinite) \/
  ((0 < zsum (S n) a b)%Z /\ exists c, ClosedForm.evaluate (S (S n)) a b = Ok c).
Proof.
  pose proof (zsum_nonneg (S n) a b) as Hnn.
  destruct (Z.eq_dec (zsum (S n) a b) 0) as [Hz|Hz].
  - left. split; [exact Hz|].
    destruct (grid_spacing n) as [d [Hsp _]].
    pose proof (riemann_grid n a b d Hsp) as HC. rewrite Hz in HC.
    assert (HC0 : ClosedForm.riemann
              (ClosedForm.unnormalised a b (ClosedForm.grid (S (S n)))) d == 0).
    { rewrite HC. unfold Qdiv. ring. }
    apply Qeq_bool_iff in HC0.
    unfold ClosedForm.evaluate, ClosedForm.normalise.
    rewrite Hsp. cbv beta iota delta [bind]. rewrite HC0. reflexivity.
  - right. split; [lia|].
    destruct (evaluate_exact n a b ltac:(lia)) as [c [_ [He _]]].
    exists c. exact He.
Qed.

Lemma zsum_two_points (a b : nat) :
  zsum 1 a b = 0%Z <-> (1 <= a)%nat /\ (1 <= b)%nat.
Proof.
  unfold zsum, znum. simpl seq. simpl map. simpl fold_right.
  change (Z.of_nat 1 - Z.of_nat 0)%Z with 1%Z.
  change (Z.of_nat 1 - Z.of_nat 1)%Z with 0%Z.
  change (Z.of_nat 1) with 1%Z. change (Z.of_nat 0) with 0%Z.
  rewrite !Z.pow_1_l by lia.
  destruct a as [|a], b as [|b].
  - simpl. split; [discriminate | lia].
  - rewrite (Z.pow_0_l (Z.of_nat (S b))) by lia. simpl. split; [discriminate | lia].
  - rewrite (Z.pow_0_l (Z.of_nat (S a))) by lia. simpl. split; [discriminate | lia].
  - rewrite (Z.pow_0_l (Z.of_nat (S a))), (Z.pow_0_l (Z.of_nat (S b))) by lia.
    simpl. split; [lia | reflexivity].
Qed.

(** X3. The evaluator raises [IndexError] exactly on grids of fewer than
    two points, where [theta[1]] does not exist. *)
Theorem evaluate_index_error_iff (num a b : nat) :
  ClosedForm.evaluate num a b = IndexError <-> (num < 2)%nat.
Proof.
  destruct num as [|[|n]].
  - split; [lia | reflexivity].
  - split; [lia | reflexivity].
  - split; [|lia]. intros H.
    destruct (evaluate_two_or_more n a b) as [[_ E]|[_ [c E]]];
      rewrite E in H; discriminate H.
Qed.

(** X4. On the grid of the two end points the evaluator yields a
    non-finite curve exactly when both exponents are positive: the density
    is then zero at both points and the constant [C] is zero; with an
    exponent 0 the density is 1 at one end at least and the cell succeeds. *)
Theorem evaluate_two_points_non_finite_iff (a b : nat) :
  ClosedForm.evaluate 2 a b = NonFinite <-> (1 <= a)%nat /\ (1 <= b)%nat.
Proof.
  destruct (evaluate_two_or_more 0 a b) as [[Hz E]|[Hp [c E]]]; rewrite E.
  - apply zsum_two_points in Hz. split; [intros _; exact Hz | reflexivity].
  - split; [discriminate|]. intros Hab.
    apply zsum_two_points in Hab. lia.
Qed.

(** ** The values before normalisation *)

Lemma grid_in_unit_interval_all (num : nat) (t : Q) :
  In t (ClosedForm.grid num) -> 0 <= t /\ t <= 1.
Proof.
  destruct num as [|[|n]].
  - intros [].
  - intros [<-|[]]. split; discriminate.
  - apply grid_in_unit_interval.
Qed.

Lemma power_in_unit_interval (t : Q) (n : nat) :
  0 <= t -> t <= 1 -> 0 <= t ^ Z.of_nat n /\ t ^ Z.of_nat n <= 1.
Proof.
  intros H0 H1. induction n as [|n [IH0 IH1]].
  - simpl. split; discriminate.
  - assert (E : t ^ Z.of_nat (S n) == t * t ^ Z.of_nat n).
    { rewrite Nat2Z.inj_succ, <- Z.add_1_l, Qpower_plus' by lia. reflexivity. }
    rewrite E. set (p := t ^ Z.of_nat n) in *. split; nra.
Qed.

Lemma density_in_unit_interval (a b : nat) (t : Q) :
  0 <= t -> t <= 1 ->
  0 <= ClosedForm.density a b t /\ ClosedForm.density a b t <= 1.
Proof.
  intros H0 H1. unfold ClosedForm.density.
  destruct (power_in_unit_interval t a H0 H1) as [A0 A1].
  destruct (power_in_unit_interval (1 - t) b ltac:(lra) ltac:(lra)) as [B0 B1].
  set (x := t ^ Z.of_nat a) in *. set (y := (1 - t) ^ Z.of_nat b) in *.
  split; nra.
Qed.

(** X5. Whatever the grid resolution and the exponents, every value the
    cell computes before normalising lies between 0 and 1. *)
Theorem unnormalised_in_unit_interval (num a b : nat) :
  Forall (fun v => 0 <= v /\ v <= 1)
         (ClosedForm.unnormalised a b (ClosedForm.grid num)).
Proof.
  rewrite unnormalised_map. apply Forall_map, Forall_forall.
  intros t Hin. destruct (grid_in_unit_interval_all num t Hin) as [H0 H1].
  apply density_in_unit_interval; assumption.
Qed.

Lemma zero_power (n : nat) : 0 ^ Z.of_nat n == (if Nat.eqb n 0 then 1 else 0).
Proof.
  destruct n as [|n].
  - reflexivity.
  - rewrite Qpower_0 by lia. reflexivity.
Qed.

(** X6. On a grid of two or more points the value before normalising is
    [0^a] at the first point, [theta = 0], and [0^b] at the last point,
    [theta = 1], with [0^0 = 1]: it is 0 when the exponent is positive and 1
    when the exponent is 0. *)
Theorem unnormalised_end_values (num a b : nat) :
  (2 <= num)%nat ->
  exists v0 v1,
    nth_error (ClosedForm.unnormalised a b (ClosedForm.grid num)) 0 = Some v0 /\
    nth_error (ClosedForm.unnormalised a b (ClosedForm.grid num)) (num - 1) = Some v1 /\
    v0 == (if Nat.eqb a 0 then 1 else 0) /\
    v1 == (if Nat.eqb b 0 then 1 else 0).
Proof.
  intros Hnum. destruct num as [|[|n]]; try lia.
  replace (S (S n) - 1)%nat with (S n) by lia.
  pose proof (linspace_last 0 1 n) as Hlast. fold (ClosedForm.grid (S (S n))) in Hlast.
  destruct (nth_error (ClosedForm.grid (S (S n))) 0) as [t0|] eqn:H0.
  2:{ apply nth_error_None in H0. rewrite grid_length in H0. lia. }
  destruct (grid_point n 0 t0 H0) as [_ Ht0].
  assert (Hz : t0 == 0) by (rewrite Ht0; unfold fraction, Qdiv; simpl; ring).
  exists (ClosedForm.density a b t0), (ClosedForm.density a b 1).
  rewrite unnormalised_map, !nth_error_map, H0, Hlast.
  split; [reflexivity|]. split; [reflexivity|]. split.
  - rewrite (density_compat a b _ _ Hz). unfold ClosedForm.density.
    assert (E : 1 - 0 == 1) by ring.
    rewrite E, Qpower_1, zero_power. ring.
  - unfold ClosedForm.density.
    assert (E : 1 - 1 == 0) by ring.
    rewrite E, Qpower_1, zero_power. ring.
Qed.

Lemma unnormalised_end_values_witness :
  exists v0 v1,
    nth_error (ClosedForm.unnormalised 9 0 (ClosedForm.grid 4)) 0 = Some v0 /\
    nth_error (ClosedForm.unnormalised 9 0 (ClosedForm.grid 4)) (4 - 1) = Some v1 /\
    v0 == (if Nat.eqb 9 0 then 1 else 0) /\
    v1 == (if Nat.eqb 0 0 then 1 else 0).
Proof.
  apply (unnormalised_end_values 4 9 0). lia.
Defined.

(** ** A zero constant *)



(** ** The estimate *)

(** X12. On a trace of at most 1000 draws nothing is left after the
    slice and the estimate is [nan]; the slice past the end never raises. *)
Theorem estimate_of_short_trace (trace : list Q) :
  ((length trace <= 1000)%nat -> Report.estimate trace = NonFinite) /\
  Report.estimate trace <> IndexError.
Proof.
  unfold Report.estimate, Np.slice_from.
  pose proof (length_skipn 1000 trace) as Hlen.
  destruct (skipn 1000 trace) as [|x l] eqn:E; simpl in *.
  - split; [reflexivity | discriminate].
  - split; [lia | discriminate].
Qed.

Lemma estimate_of_short_trace_witness :
  Report.estimate (repeat (1 # 2) 1000) = NonFinite.
Proof.
  apply (proj1 (estimate_of_short_trace (repeat (1 # 2) 1000))).
  rewrite repeat_length. apply le_n.
Defined.

Lemma skipn_prefix (k : nat) (pre rest : list Q) :
  length pre = k -> skipn k (pre ++ rest) = rest.
Proof.
  intros <-. rewrite skipn_app, skipn_all, Nat.sub_diag. reflexivity.
Qed.

(** X20. The estimate does not depend on the first 1000 draws: two traces
    that differ only in their first 1000 entries give the same estimate,
    the mean of the shared remainder. *)
Theorem estimate_ignores_burn_in (pre pre' rest : list Q) :
  length pre = 1000%nat -> length pre' = 1000%nat ->
  Report.estimate (pre ++ rest) = Report.estimate (pre' ++ rest) /\
  Report.estimate (pre ++ rest) = Np.mean rest.
Proof.
  intros H H'. unfold Report.estimate, Np.slice_from.
  rewrite (skipn_prefix _ pre rest H), (skipn_prefix _ pre' rest H').
  split; reflexivity.
Qed.

Lemma estimate_ignores_burn_in_witness :
  Report.estimate (repeat 0 1000 ++ [1 # 4; 3 # 4]) =
    Report.estimate (repeat 1 1000 ++ [1 # 4; 3 # 4]) /\
  Report.estimate (repeat 0 1000 ++ [1 # 4; 3 # 4]) = Np.mean [1 # 4; 3 # 4].
Proof.
  apply (estimate_ignores_burn_in (repeat 0 1000) (repeat 1 1000) [1 # 4; 3 # 4]);
    apply repeat_length.
Defined.

(** ** The observed data *)

Lemma skipn_repeat (x : Q) (k n : nat) : skipn k (repeat x n) = repeat x (n - k).
Proof.
  revert n. induction k as [|k IH]; intros n.
  - rewrite Nat.sub_0_r. reflexivity.
  - destruct n as [|n]; [reflexivity|]. simpl. apply IH.
Qed.

Lemma assign_prefix_zeros (n k : nat) (v : Q) :
  Np.assign_prefix (Np.zeros n) k v = repeat v (Nat.min k n) ++ repeat 0 (n - k).
Proof.
  unfold Np.assign_prefix, Np.zeros. rewrite repeat_length, skipn_repeat. reflexivity.
Qed.

Lemma count_repeat (f : Q -> bool) (x : Q) (n : nat) :
  length (filter f (repeat x n)) = if f x then n else 0%nat.
Proof.
  induction n as [|n IH]; simpl.
  - destruct (f x); reflexivity.
  - destruct (f x); simpl; rewrite IH; reflexivity.
Qed.

(** X13. Setting the first [k] entries of an array of [n] zeros to 1 gives
    a binary sequence of length [n] with [min k n] successes and the rest
    failures; a [k] beyond the end sets every entry and is no error. *)
Theorem zeros_with_ones_prefix (n k : nat) :
  length (Np.assign_prefix (Np.zeros n) k 1) = n /\
  Model.binary (Np.assign_prefix (Np.zeros n) k 1) /\
  Model.successes (Np.assign_prefix (Np.zeros n) k 1) = Nat.min k n /\
  Model.failures (Np.assign_prefix (Np.zeros n) k 1) = (n - k)%nat.
Proof.
  rewrite assign_prefix_zeros.
  unfold Model.binary, Model.successes, Model.failures.
  rewrite length_app, !repeat_length, forallb_app, !filter_app, !length_app,
    !count_repeat.
  assert (B1 : forallb Model.is_binary (repeat 1 (Nat.min k n)) = true).
  { apply forallb_forall. intros x Hx. apply repeat_spec in Hx. subst x. reflexivity. }
  assert (B0 : forallb Model.is_binary (repeat 0 (n - k)) = true).
  { apply forallb_forall. intros x Hx. apply repeat_spec in Hx. subst x. reflexivity. }
  rewrite B1, B0. simpl. repeat split; lia.
Qed.

(** ** The likelihood *)

(** X14. For binary data the likelihood is [t^k (1-t)^f] with [k] the
    number of successes and [f] the number of failures. *)
Theorem likelihood_of_counts (t : Q) (ys : list Q) :
  Model.binary ys ->
  Model.likelihood t ys ==
  t ^ Z.of_nat (Model.successes ys) * (1 - t) ^ Z.of_nat (Model.failures ys).
Proof.
  intros Hbin.
  pose proof (posterior_kernel_conjugate 1 1 ys t ltac:(lia) ltac:(lia) Hbin) as H.
  unfold Model.posterior_kernel, Model.beta_kernel in H.
  replace (1 + Z.of_nat (Model.successes ys) - 1)%Z
    with (Z.of_nat (Model.successes ys)) in H by lia.
  replace (1 + Z.of_nat (Model.failures ys) - 1)%Z
    with (Z.of_nat (Model.failures ys)) in H by lia.
  rewrite <- H. simpl. ring.
Qed.

Lemma likelihood_of_counts_witness :
  Model.likelihood (1 # 3) Model.y_obs ==
  (1 # 3) ^ Z.of_nat (Model.successes Model.y_obs) *
  (1 - (1 # 3)) ^ Z.of_nat (Model.failures Model.y_obs).
Proof.
  apply (likelihood_of_counts (1 # 3) Model.y_obs). reflexivity.
Defined.

(** X15. The likelihood does not depend on the order of the tosses. *)
Theorem likelihood_order_irrelevant (t : Q) (ys ys' : list Q) :
  Permutation ys ys' -> Model.likelihood t ys == Model.likelihood t ys'.
Proof.
  induction 1 as [|y l l' _ IH|x y l|l l' l'' _ IH1 _ IH2]; simpl.
  - reflexivity.
  - fold (Model.likelihood t l). fold (Model.likelihood t l'). rewrite IH. reflexivity.
  - fold (Model.likelihood t l). ring.
  - rewrite IH1. exact IH2.
Qed.

Lemma likelihood_order_irrelevant_witness :
  Model.likelihood (1 # 3) [1; 0; 1] == Model.likelihood (1 # 3) [0; 1; 1].
Proof.
  apply (likelihood_order_irrelevant (1 # 3) [1; 0; 1] [0; 1; 1]).
  apply perm_swap.
Defined.

(** ** Running the cells *)

(** X16. The model cell and the evaluator cell write disjoint variables:
    running them in either order gives the same namespace, and the evaluator
    leaves the trace and the model's variables as they were. *)
Theorem cells_commute (num a b : nat) (draws : list Q) (e : Notebook.env) :
  Notebook.cell_closed_form_at num a b (Notebook.cell_model draws e) =
  Notebook.map_outcome (Notebook.cell_model draws)
    (Notebook.cell_closed_form_at num a b e) /\
  (forall e', Notebook.cell_closed_form_at num a b e = Ok e' ->
     Notebook.v_trace e' = Notebook.v_trace e /\
     Notebook.v_alpha e' = Notebook.v_alpha e /\
     Notebook.v_beta e' = Notebook.v_beta e /\
     Notebook.v_y_obs e' = Notebook.v_y_obs e /\
     Notebook.v_niter e' = Notebook.v_niter e /\
     Notebook.cell_estimate e' = Notebook.cell_estimate e).
Proof.
  unfold Notebook.cell_closed_form_at, Notebook.map_outcome.
  cbv beta iota zeta delta [Notebook.v_theta Notebook.v_post_theta Notebook.v_C].
  destruct (ClosedForm.spacing (Np.linspace 0 1 num)) as [d| |];
    cbv beta iota delta [bind].
  - destruct (Qeq_bool _ 0).
    + split; [reflexivity | discriminate].
    + split; [reflexivity|]. intros e' H. injection H as <-.
      repeat split.
  - split; [reflexivity | discriminate].
  - split; [reflexivity | discriminate].
Qed.

Lemma cells_commute_witness :
  let e0 := {| Notebook.v_alpha := 0; Notebook.v_beta := 0; Notebook.v_y_obs := [];
               Notebook.v_niter := 0; Notebook.v_trace := [1 # 2]; Notebook.v_theta := [];
               Notebook.v_post_theta := []; Notebook.v_C := 0 |} in
  exists e',
    Notebook.cell_closed_form_at 3 1 1 e0 = Ok e' /\
    Notebook.v_trace e' = Notebook.v_trace e0 /\
    Notebook.v_alpha e' = Notebook.v_alpha e0 /\
    Notebook.v_beta e' = Notebook.v_beta e0 /\
    Notebook.v_y_obs e' = Notebook.v_y_obs e0 /\
    Notebook.v_niter e' = Notebook.v_niter e0 /\
    Notebook.cell_estimate e' = Notebook.cell_estimate e0.
Proof.
  intro e0. eexists. split; [vm_compute; reflexivity|].
  apply (proj2 (cells_commute 3 1 1 [] e0)). vm_compute. reflexivity.
Defined.

(** X17. Running the evaluator cell again on its own result changes
    nothing: the cell recomputes the density from the grid before dividing,
    so the curve is not divided by [C] twice. *)
Theorem cell_closed_form_rerun (num a b : nat) (e e' : Notebook.env) :
  Notebook.cell_closed_form_at num a b e = Ok e' ->
  Notebook.cell_closed_form_at num a b e' = Ok e'.
Proof.
  unfold Notebook.cell_closed_form_at.
  cbv beta iota zeta delta [Notebook.v_theta Notebook.v_post_theta Notebook.v_C].
  destruct (ClosedForm.spacing (Np.linspace 0 1 num)) as [d| |];
    cbv beta iota delta [bind]; try discriminate.
  destruct (Qeq_bool _ 0); try discriminate.
  intros H. injection H as <-. reflexivity.
Qed.

Lemma cell_closed_form_rerun_witness :
  let e0 := {| Notebook.v_alpha := 0; Notebook.v_beta := 0; Notebook.v_y_obs := [];
               Notebook.v_niter := 0; Notebook.v_trace := []; Notebook.v_theta := [];
               Notebook.v_post_theta := []; Notebook.v_C := 0 |} in
  exists e',
    Notebook.cell_closed_form_at 3 1 1 e0 = Ok e' /\
    Notebook.cell_closed_form_at 3 1 1 e' = Ok e'.
Proof.
  intro e0. eexists. split; [vm_compute; reflexivity|].
  apply (cell_closed_form_rerun 3 1 1 e0). vm_compute. reflexivity.
Defined.

(** X18. After a successful run of the evaluator cell the two arrays
    handed to [plt.plot] have the same length, the number of grid points. *)
Theorem plot_line_lengths (num a b : nat) (e e' : Notebook.env) :
  Notebook.cell_closed_form_at num a b e = Ok e' ->
  length (Report.line_x (Notebook.cell_plot e')) = num /\
  length (Report.line_y (Notebook.cell_plot e')) = num.
Proof.
  unfold Notebook.cell_closed_form_at.
  cbv beta iota zeta delta [Notebook.v_theta Notebook.v_post_theta Notebook.v_C].
  destruct (ClosedForm.spacing (Np.linspace 0 1 num)) as [d| |];
    cbv beta iota delta [bind]; try discriminate.
  destruct (Qeq_bool _ 0); try discriminate.
  intros H. injection H as <-. simpl. split.
  - apply linspace_length.
  - unfold Np.divide. rewrite length_map, unnormalised_map, length_map.
    apply linspace_length.
Qed.

Lemma plot_line_lengths_witness :
  let e0 := {| Notebook.v_alpha := 0; Notebook.v_beta := 0; Notebook.v_y_obs := [];
               Notebook.v_niter := 0; Notebook.v_trace := []; Notebook.v_theta := [];
               Notebook.v_post_theta := []; Notebook.v_C := 0 |} in
  exists e',
    Notebook.cell_closed_form_at 3 1 1 e0 = Ok e' /\
    length (Report.line_x (Notebook.cell_plot e')) = 3%nat /\
    length (Report.line_y (Notebook.cell_plot e')) = 3%nat.
Proof.
  intro e0. eexists. split; [vm_compute; reflexivity|].
  apply (plot_line_lengths 3 1 1 e0). vm_compute. reflexivity.
Defined.

